(** * OpenDaylight controller client: a shallow embedding

    Source: [src/topologies/sdn-controller-interaction.py].

    The Python module talks to an OpenDaylight controller over REST.  Its
    class [ODLController] is embedded as monadic code over an explicit
    [world]: the controller object, the network (what each HTTP exchange
    answers and how long it takes), the requests issued so far, the
    controller's config datastore, the wall clock and the log output.
    Values that come back from [response.json()] are dynamically typed, so
    the Python operators used on them ([in], subscripting, [for], [len],
    truthiness) are embedded with the [TypeError]s they raise. *)

From Stdlib Require Import ZArith NArith Lia String Ascii List Bool.
From stdpp Require Import base gmap strings list pretty.

Local Open Scope string_scope.
Local Open Scope Z_scope.
Local Open Scope list_scope.

(** ** Python values obtained from JSON *)

(** What [json.loads] produces.  A number is [m * 10^e] (Python keeps [int]
    and [float] apart, which no operation used here distinguishes).  A dict
    is the list of its items in insertion order, keys pairwise distinct. *)
#[warnings="-register-all"]
Inductive json : Type :=
| JNull
| JBool (b : bool)
| JNum (m e : Z)
| JStr (s : string)
| JList (items : list json)
| JDict (fields : list (string * json)).

(** Exceptions that can occur in this module.  The first four are the
    classes of [requests.exceptions] (requests 2.27 and later, where
    [JSONDecodeError] derives from [RequestException]). *)
Inductive exn : Type :=
| ConnectionError (why : string)
| ReadTimeout
| HTTPError (status : Z)
| JSONDecodeError
| TypeError (msg : string)
| ValueError (msg : string)
| KeyError (key : string).

(** [isinstance(e, requests.exceptions.RequestException)] *)
Definition RequestException (e : exn) : bool :=
  match e with
  | ConnectionError _ | ReadTimeout | HTTPError _ | JSONDecodeError => true
  | TypeError _ | ValueError _ | KeyError _ => false
  end.

(** Outcome of running Python code: a value, a raised exception, or the
    embedding's recursion budget spent before the code finished. *)
Inductive res (A : Type) : Type :=
| Ret (a : A)
| Raise (e : exn)
| OutOfFuel.
Arguments Ret {A} a.
Arguments Raise {A} e.
Arguments OutOfFuel {A}.

#[global] Instance res_ret : MRet res := fun A a => Ret a.
#[global] Instance res_bind : MBind res := fun A B f m =>
  match m with
  | Ret a => f a
  | Raise e => Raise e
  | OutOfFuel => OutOfFuel
  end.

(** ** Python operators on JSON values *)

(** [bool(v)] *)
Definition truthy (v : json) : bool :=
  match v with
  | JNull => false
  | JBool b => b
  | JNum m _ => negb (m =? 0)
  | JStr s => negb (String.eqb s "")
  | JList items => match items with [] => false | _ :: _ => true end
  | JDict fields => match fields with [] => false | _ :: _ => true end
  end.

Fixpoint dict_get (key : string) (fields : list (string * json)) : option json :=
  match fields with
  | [] => None
  | (k, v) :: rest => if String.eqb k key then Some v else dict_get key rest
  end.

Definition is_str (key : string) (v : json) : bool :=
  match v with JStr s => String.eqb s key | _ => false end.

(** [needle in hay] on two strings *)
Fixpoint is_substring (needle hay : string) : bool :=
  String.prefix needle hay
  || match hay with
     | EmptyString => false
     | String _ rest => is_substring needle rest
     end.

Definition type_name (v : json) : string :=
  match v with
  | JNull => "NoneType"
  | JBool _ => "bool"
  | JNum _ _ => "int"
  | JStr _ => "str"
  | JList _ => "list"
  | JDict _ => "dict"
  end.

(** [key in v], for a string [key] *)
Definition py_in (key : string) (v : json) : res bool :=
  match v with
  | JDict fields =>
      Ret (match dict_get key fields with Some _ => true | None => false end)
  | JList items => Ret (existsb (is_str key) items)
  | JStr s => Ret (is_substring key s)
  | _ => Raise (TypeError ("argument of type '" +:+ type_name v +:+ "' is not iterable"))
  end.

(** [v[key]], for a string [key] *)
Definition py_getitem (v : json) (key : string) : res json :=
  match v with
  | JDict fields =>
      match dict_get key fields with
      | Some x => Ret x
      | None => Raise (KeyError key)
      end
  | JList _ => Raise (TypeError "list indices must be integers or slices, not str")
  | JStr _ => Raise (TypeError "string indices must be integers, not 'str'")
  | _ => Raise (TypeError ("'" +:+ type_name v +:+ "' object is not subscriptable"))
  end.

Fixpoint chars (s : string) : list json :=
  match s with
  | EmptyString => []
  | String c rest => JStr (String c EmptyString) :: chars rest
  end.

(** the items [for x in v] runs over *)
Definition py_iter (v : json) : res (list json) :=
  match v with
  | JList items => Ret items
  | JDict fields => Ret (map (fun kv => JStr (fst kv)) fields)
  | JStr s => Ret (chars s)
  | _ => Raise (TypeError ("'" +:+ type_name v +:+ "' object is not iterable"))
  end.

(** [len(v)] *)
Definition py_len (v : json) : res Z :=
  match v with
  | JList items => Ret (Z.of_nat (length items))
  | JDict fields => Ret (Z.of_nat (length fields))
  | JStr s => Ret (Z.of_nat (String.length s))
  | _ => Raise (TypeError ("object of type '" +:+ type_name v +:+ "' has no len()"))
  end.

(** [str(n)] for an integer, as f-strings and [str()] print it *)
Definition str (n : Z) : string := pretty n.

(** [s.replace(old, new)] for one-character [old] and [new] *)
Fixpoint str_replace (old new : ascii) (s : string) : string :=
  match s with
  | EmptyString => EmptyString
  | String c rest =>
      String (if Ascii.eqb c old then new else c) (str_replace old new rest)
  end.

(** ** The world the client runs in *)

Inductive verb : Type := GET | PUT | DELETE.

(** The body of a write: [json.dumps(flow_body)], kept symbolic. *)
Inductive payload : Type := json_dumps (body : json).

Record request : Type := mk_request {
  method : verb;
  url : string;
  req_auth : string * string;
  req_headers : list (string * string);
  data : option payload
}.

(** Why an exchange can end without a response. *)
Inductive transport_error : Type :=
| dns_failure
| connection_refused
| timed_out.

(** The exception [requests] raises for it. *)
Definition raised (t : transport_error) : exn :=
  match t with
  | dns_failure => ConnectionError "Name or service not known"
  | connection_refused => ConnectionError "Connection refused"
  | timed_out => ReadTimeout
  end.

(** What one HTTP exchange comes to: no response at all, or a final
    response with its status code and its body, the body being [None] when
    it is not valid JSON. *)
Inductive answer : Type :=
| Unreachable (t : transport_error)
| Response (status_code : Z) (body : option json).

Record reply : Type := mk_reply {
  latency : N;
  outcome : answer
}.

(** The attributes [__init__] sets on the object. *)
Record ODLController : Type := mk_ODLController {
  base_url : string;
  auth : string * string;
  headers : list (string * string)
}.

Inductive level : Type := INFO | WARNING | ERROR.

Record world : Type := mk_world {
  this : ODLController;
  network : nat -> reply;
  sent : list request;
  datastore : gmap string payload;
  clock : Z;
  logged : list (level * string)
}.

(** Code with effects on the world; the effects of code that raises stay. *)
Definition M (A : Type) : Type := world -> res A * world.

#[global] Instance M_ret : MRet M := fun A a w => (Ret a, w).
#[global] Instance M_bind : MBind M := fun A B f m w =>
  match m w with
  | (Ret a, w') => f a w'
  | (Raise e, w') => (Raise e, w')
  | (OutOfFuel, w') => (OutOfFuel, w')
  end.

Definition lift {A} (r : res A) : M A := fun w => (r, w).

(** [try: body except requests.exceptions.RequestException as e: handler] *)
Definition try_except {A} (body : M A) (handler : exn -> M A) : M A :=
  fun w =>
    match body w with
    | (Raise e, w') =>
        if RequestException e then handler e w' else (Raise e, w')
    | r => r
    end.

Definition self : M ODLController := fun w => (Ret (this w), w).

(** The three ways the world moves on. *)
Definition note (l : level) (msg : string) (w : world) : world :=
  mk_world (this w) (network w) (sent w) (datastore w) (clock w)
           (logged w ++ [(l, msg)]).

Definition pass (secs : Z) (w : world) : world :=
  mk_world (this w) (network w) (sent w) (datastore w) (clock w + secs)
           (logged w).

Definition emit (l : level) (msg : string) : M unit := fun w =>
  (Ret tt, note l msg w).

Definition logger_info := emit INFO.
Definition logger_warning := emit WARNING.
Definition logger_error := emit ERROR.

(** [time.time()] *)
Definition time_time : M Z := fun w => (Ret (clock w), w).

(** [time.sleep(secs)] *)
Definition time_sleep (secs : Z) : M unit := fun w =>
  if secs <? 0 then (Raise (ValueError "sleep length must be non-negative"), w)
  else (Ret tt, pass secs w).

Definition accepted (r : reply) : bool :=
  match outcome r with
  | Response st _ => (200 <=? st) && (st <? 300)
  | Unreachable _ => false
  end.

(** Modelled from the spec: the controller's config datastore, which is not
    part of this repository.  A write the controller answers with a 2xx
    status took effect: PUT replaces (creates or updates) the resource at
    the request's path, DELETE removes it; nothing else changes the store. *)
Definition serve (q : request) (r : reply)
    (store : gmap string payload) : gmap string payload :=
  if accepted r then
    match method q, data q with
    | PUT, Some d => <[url q := d]> store
    | DELETE, _ => delete (url q) store
    | _, _ => store
    end
  else store.

Record response : Type := mk_response {
  status : Z;
  content : option json
}.

Definition exchange (q : request) (w : world) : world :=
  let r := network w (length (sent w)) in
  mk_world (this w) (network w) (sent w ++ [q]) (serve q r (datastore w))
           (clock w + Z.of_N (latency r)) (logged w).

(** [requests.request]: the exchange takes its time, reaches the controller
    or not, and hands back a response or raises. *)
Definition requests_request (q : request) : M response := fun w =>
  match outcome (network w (length (sent w))) with
  | Unreachable t => (Raise (raised t), exchange q w)
  | Response st b => (Ret (mk_response st b), exchange q w)
  end.

Definition requests_get (u : string) (a : string * string)
    (h : list (string * string)) : M response :=
  requests_request (mk_request GET u a h None).

Definition requests_put (u : string) (a : string * string)
    (h : list (string * string)) (d : payload) : M response :=
  requests_request (mk_request PUT u a h (Some d)).

Definition requests_delete (u : string) (a : string * string)
    (h : list (string * string)) : M response :=
  requests_request (mk_request DELETE u a h None).

(** [response.raise_for_status()]: 4xx and 5xx raise [HTTPError]. *)
Definition raise_for_status (r : response) : M unit :=
  if (400 <=? status r) && (status r <? 600)
  then lift (Raise (HTTPError (status r)))
  else mret tt.

(** [response.json()] *)
Definition response_json (r : response) : M json :=
  match content r with
  | Some v => mret v
  | None => lift (Raise JSONDecodeError)
  end.

(** [f"{e}"] for a caught exception (the text is abridged). *)
Definition exn_text (e : exn) : string :=
  match e with
  | ConnectionError why => why
  | ReadTimeout => "Read timed out."
  | HTTPError st => str st +:+ " Error"
  | JSONDecodeError => "Expecting value: line 1 column 1 (char 0)"
  | TypeError msg => msg
  | ValueError msg => msg
  | KeyError key => "'" +:+ key +:+ "'"
  end.

(** ** class ODLController *)

Module ODL.

Definition __init__ (ip : string) (port : Z) (username password : string)
    : ODLController :=
  {| base_url := "http://" +:+ ip +:+ ":" +:+ str port +:+ "/restconf";
     auth := (username, password);
     headers := [("Content-Type", "application/json");
                 ("Accept", "application/json")] |}.

(** The four reads share one shape: GET, check the status, parse. *)
Definition get_topology : M json :=
  obj ← self;
  let url := base_url obj +:+ "/operational/network-topology:network-topology" in
  try_except
    (response ← requests_get url (auth obj) (headers obj);
     raise_for_status response;;
     response_json response)
    (fun e =>
       logger_error ("Failed to retrieve topology: " +:+ exn_text e);;
       mret JNull).

Definition get_nodes : M json :=
  obj ← self;
  let url := base_url obj +:+ "/operational/opendaylight-inventory:nodes" in
  try_except
    (response ← requests_get url (auth obj) (headers obj);
     raise_for_status response;;
     response_json response)
    (fun e =>
       logger_error ("Failed to retrieve nodes: " +:+ exn_text e);;
       mret JNull).

Definition get_node_connectors (node_id : string) : M json :=
  obj ← self;
  let url := base_url obj +:+ "/operational/opendaylight-inventory:nodes/node/"
             +:+ node_id in
  try_except
    (response ← requests_get url (auth obj) (headers obj);
     raise_for_status response;;
     response_json response)
    (fun e =>
       logger_error ("Failed to retrieve connectors for node " +:+ node_id
                     +:+ ": " +:+ exn_text e);;
       mret JNull).

Definition get_flows (node_id : string) : M json :=
  obj ← self;
  let url := base_url obj +:+ "/operational/opendaylight-inventory:nodes/node/"
             +:+ node_id +:+ "/flow-node-inventory:table/0" in
  try_except
    (response ← requests_get url (auth obj) (headers obj);
     raise_for_status response;;
     response_json response)
    (fun e =>
       logger_error ("Failed to retrieve flows for node " +:+ node_id
                     +:+ ": " +:+ exn_text e);;
       mret JNull).

Definition install_flow (node_id flow_id : string) (flow_body : json) : M bool :=
  obj ← self;
  let url := base_url obj +:+ "/config/opendaylight-inventory:nodes/node/"
             +:+ node_id +:+ "/flow-node-inventory:table/0/flow/" +:+ flow_id in
  try_except
    (response ← requests_put url (auth obj) (headers obj) (json_dumps flow_body);
     raise_for_status response;;
     logger_info ("Flow " +:+ flow_id +:+ " installed on node " +:+ node_id);;
     mret true)
    (fun e =>
       logger_error ("Failed to install flow " +:+ flow_id +:+ " on node "
                     +:+ node_id +:+ ": " +:+ exn_text e);;
       mret false).

Definition delete_flow (node_id flow_id : string) : M bool :=
  obj ← self;
  let url := base_url obj +:+ "/config/opendaylight-inventory:nodes/node/"
             +:+ node_id +:+ "/flow-node-inventory:table/0/flow/" +:+ flow_id in
  try_except
    (response ← requests_delete url (auth obj) (headers obj);
     raise_for_status response;;
     logger_info ("Flow " +:+ flow_id +:+ " deleted from node " +:+ node_id);;
     mret true)
    (fun e =>
       logger_error ("Failed to delete flow " +:+ flow_id +:+ " from node "
                     +:+ node_id +:+ ": " +:+ exn_text e);;
       mret false).

Definition get_node_statistics (node_id : string) : M json :=
  obj ← self;
  let url := base_url obj +:+ "/operational/opendaylight-inventory:nodes/node/"
             +:+ node_id +:+ "/node-connector" in
  try_except
    (response ← requests_get url (auth obj) (headers obj);
     raise_for_status response;;
     response_json response)
    (fun e =>
       logger_error ("Failed to retrieve statistics for node " +:+ node_id
                     +:+ ": " +:+ exn_text e);;
       mret JNull).

(** The two placeholders: two log lines and [return True]. *)
Definition create_shortest_path_flows (source_host dest_host : string)
    (path_preference : string) : M bool :=
  logger_info ("Creating " +:+ path_preference +:+ " path flows from "
               +:+ source_host +:+ " to " +:+ dest_host);;
  logger_warning
    "This is a placeholder implementation. Actual path computation required.";;
  mret true.

Definition create_load_balanced_flows (source_ip dest_ip : string)
    (path_count : Z) : M bool :=
  logger_info ("Creating load-balanced flows from " +:+ source_ip +:+ " to "
               +:+ dest_ip +:+ " across " +:+ str path_count +:+ " paths");;
  logger_warning
    "This is a placeholder implementation. Actual multi-path routing required.";;
  mret true.

(** The [for topo in ...] loop of [wait_for_topology_discovery]; [true] when
    the loop body reached [return True]. *)
Fixpoint for_topo (entries : list json) : M bool :=
  match entries with
  | [] => mret false
  | topo :: rest =>
      has_node ← lift (py_in "node" topo);
      has_both ← (if has_node : bool then lift (py_in "link" topo) else mret false);
      if has_both : bool then
        nodes ← lift (py_getitem topo "node" ≫= py_len);
        links ← (if 0 <? nodes then lift (py_getitem topo "link" ≫= py_len)
                 else mret 0);
        if (0 <? nodes) && (0 <? links) then
          logger_info ("Topology discovery complete. Found " +:+ str nodes
                       +:+ " nodes and " +:+ str links +:+ " links.");;
          mret true
        else for_topo rest
      else for_topo rest
  end.

(** One pass of the [while] body after [topology = self.get_topology()]:
    [Some b] when it returns [b], [None] when it goes round again. *)
Definition poll_step (poll_interval : Z) (topology : json) : M (option bool) :=
  if negb (truthy topology) then
    logger_warning "Could not retrieve topology, retrying...";;
    time_sleep poll_interval;;
    mret None
  else
    has_top ← lift (py_in "network-topology" topology);
    has_both ← (if has_top : bool
                then lift (py_getitem topology "network-topology"
                           ≫= py_in "topology")
                else mret false);
    found ← (if has_both : bool
             then entries ← lift (nt ← py_getitem topology "network-topology";
                                  ts ← py_getitem nt "topology";
                                  py_iter ts);
                  for_topo entries
             else mret false);
    if found : bool then mret (Some true)
    else
      logger_info "Topology discovery in progress...";;
      time_sleep poll_interval;;
      mret None.

Fixpoint wait_loop (fuel : nat) (timeout poll_interval start_time : Z) : M bool :=
  match fuel with
  | O => lift OutOfFuel
  | S fuel' =>
      now ← time_time;
      if now - start_time <? timeout then
        topology ← get_topology;
        next ← poll_step poll_interval topology;
        match next with
        | Some b => mret b
        | None => wait_loop fuel' timeout poll_interval start_time
        end
      else
        logger_warning ("Topology discovery timed out after " +:+ str timeout
                        +:+ "s");;
        mret false
  end.

Definition wait_for_topology_discovery (fuel : nat)
    (timeout poll_interval : Z) : M bool :=
  logger_info ("Waiting for topology discovery (timeout: " +:+ str timeout
               +:+ "s)");;
  start_time ← time_time;
  wait_loop fuel timeout poll_interval start_time.

End ODL.

(** ** create_example_flow *)

Definition flow_id_of (match_ip : string) : string :=
  "flow-to-" +:+ str_replace "." "-" match_ip.

Definition create_example_flow (match_ip : string) (output_port : Z) : json :=
  JDict [("flow",
    JList [JDict [
      ("id", JStr (flow_id_of match_ip));
      ("priority", JNum 100 0);
      ("table_id", JNum 0 0);
      ("match", JDict [
         ("ethernet-match",
            JDict [("ethernet-type", JDict [("type", JNum 2048 0)])]);
         ("ipv4-destination", JStr (match_ip +:+ "/32"))]);
      ("instructions", JDict [
         ("instruction", JList [JDict [
            ("order", JNum 0 0);
            ("apply-actions", JDict [
               ("action", JList [JDict [
                  ("order", JNum 0 0);
                  ("output-action", JDict [
                     ("output-node-connector",
                        JStr (str output_port))])]])])]])])]])].

(** * Vocabulary of the properties *)

Import ODL.

(** ** Shapes of topology responses *)

Definition nonempty_list (o : option json) : bool :=
  match o with
  | Some (JList (_ :: _)) => true
  | _ => false
  end.

(** An entry with a non-empty node list and a non-empty link list. *)
Definition ready_entry (e : json) : bool :=
  match e with
  | JDict fs =>
      nonempty_list (dict_get "node" fs) && nonempty_list (dict_get "link" fs)
  | _ => false
  end.

(** An entry the waiter passes over: a mapping without ['node'] or without
    ['link'], or with an empty node list, or with a node list and an empty
    link list. *)
Definition unready_entry (e : json) : bool :=
  match e with
  | JDict fs =>
      match dict_get "node" fs, dict_get "link" fs with
      | Some (JList []), Some _ => true
      | Some (JList (_ :: _)), Some (JList []) => true
      | Some _, Some _ => false
      | _, _ => true
      end
  | _ => false
  end.

(** An entry that has no ['node'] key or no ['link'] key. *)
Definition keyless_entry (e : json) : bool :=
  match e with
  | JDict fs =>
      match dict_get "node" fs, dict_get "link" fs with
      | Some _, Some _ => false
      | _, _ => true
      end
  | _ => false
  end.

(** The entries of a response of the expected shape
    [{'network-topology': {'topology': [...]}}]. *)
Definition topology_entries (t : json) : option (list json) :=
  match t with
  | JDict fs =>
      match dict_get "network-topology" fs with
      | Some (JDict gs) =>
          match dict_get "topology" gs with
          | Some (JList es) => Some es
          | _ => None
          end
      | _ => None
      end
  | _ => None
  end.

(** A parsed response that lacks an expected key: no ['network-topology'],
    or a mapping under it without ['topology'], or under that a list of
    entries each a mapping without ['node'] or without ['link']. *)
Definition lacks_keys (t : json) : bool :=
  match t with
  | JDict fs =>
      match dict_get "network-topology" fs with
      | None => true
      | Some (JDict gs) =>
          match dict_get "topology" gs with
          | None => true
          | Some (JList es) => forallb keyless_entry es
          | Some _ => false
          end
      | Some _ => false
      end
  | _ => false
  end.

(** A poll result that shows no discovered topology: a falsy value, or a
    mapping that lacks the expected keys or whose entries are all unready. *)
Definition unready_response (t : json) : bool :=
  match t with
  | JDict fs =>
      match dict_get "network-topology" fs with
      | None => true
      | Some (JDict gs) =>
          match dict_get "topology" gs with
          | None => true
          | Some (JList es) => forallb unready_entry es
          | Some _ => false
          end
      | Some _ => false
      end
  | _ => negb (truthy t)
  end.

(** An exchange after which [get_topology] has nothing discovered to show:
    it failed in transport, came back 4xx or 5xx, did not parse, or parsed
    to an unready response. *)
Definition quiet (r : reply) : bool :=
  match outcome r with
  | Unreachable _ => true
  | Response st b =>
      (400 <=? st) && (st <? 600)
      || match b with
         | None => true
         | Some t => unready_response t
         end
  end.

(** What a read operation hands back for an exchange. *)
Definition fetched (r : reply) : json :=
  match outcome r with
  | Unreachable _ => JNull
  | Response st b =>
      if (400 <=? st) && (st <? 600) then JNull
      else match b with
           | Some v => v
           | None => JNull
           end
  end.

(** The next exchange the network has in store. *)
Definition upcoming (w : world) : reply := network w (length (sent w)).

(** ** Worlds along the polling loop *)

Definition retry_line : level * string :=
  (WARNING, "Could not retrieve topology, retrying...").

Definition progress_line : level * string :=
  (INFO, "Topology discovery in progress...").

Definition topology_request (obj : ODLController) : request :=
  mk_request GET
    (base_url obj +:+ "/operational/network-topology:network-topology")
    (auth obj) (headers obj) None.

(** The world after [get_topology]: one more request, the exchange's
    latency on the clock, some lines logged, nothing else touched. *)
Definition after_poll (lines : list (level * string)) (w : world) : world :=
  mk_world (this w) (network w) (sent w ++ [topology_request (this w)])
           (datastore w) (clock w + Z.of_N (latency (upcoming w)))
           (logged w ++ lines).

(** The world at the next turn of the loop, after a poll that showed
    nothing and the sleep that follows it. *)
Definition next_turn (poll_interval : Z) (lines : list (level * string))
    (w : world) : world :=
  mk_world (this w) (network w) (sent w ++ [topology_request (this w)])
           (datastore w)
           (clock w + Z.of_N (latency (upcoming w)) + poll_interval)
           (logged w ++ lines).

(** Time taken by [k] fruitless turns of the loop, the first of which
    consumes exchange [i]: each turn is one exchange and one sleep. *)
Fixpoint waited (net : nat -> reply) (i k : nat) (poll_interval : Z) : Z :=
  match k with
  | O => 0
  | S k' =>
      Z.of_N (latency (net i)) + poll_interval + waited net (S i) k' poll_interval
  end.

(** The world after [k] fruitless turns and [n] exchanges in all. *)
Definition later (n : nat) (now : Z) (lines : list (level * string))
    (w : world) : world :=
  mk_world (this w) (network w)
           (sent w ++ repeat (topology_request (this w)) n)
           (datastore w) now (logged w ++ lines).

(** ** A lab to run the client in *)

Definition lab : ODLController := __init__ "opendaylight" 8181 "admin" "admin".

(** A fresh world around [lab] whose network answers as [net] says. *)
Definition boot (net : nat -> reply) : world := mk_world lab net [] ∅ 0 [].

(** A 200 response carrying [t], after [lat] units of time. *)
Definition ok_after (lat : N) (t : json) : reply :=
  mk_reply lat (Response 200 (Some t)).

Definition topology_of (entries : list json) : json :=
  JDict [("network-topology", JDict [("topology", JList entries)])].

Definition switch_entry : json :=
  JDict [("topology-id", JStr "flow:1");
         ("node", JList [JDict [("node-id", JStr "openflow:1")];
                         JDict [("node-id", JStr "openflow:2")]]);
         ("link", JList [JDict [("link-id", JStr "openflow:1:1")]])].

Definition bare_entry : json := JDict [("topology-id", JStr "ovsdb:1")].

Definition null_node_entry : json :=
  JDict [("topology-id", JStr "ovsdb:1"); ("node", JNull); ("link", JList [])].

(** One empty poll, then a topology with a ready entry in second place. *)
Definition discovering (i : nat) : reply :=
  match i with
  | O => ok_after 1 (topology_of [])
  | S _ => ok_after 1 (topology_of [bare_entry; switch_entry; JNull])
  end.

Definition topology_missing : json :=
  JDict [("network-topology", JDict [("topology-count", JNum 0 0)])].

(** ** Failed exchanges and flow requests *)

(** An exchange that failed in transport: no response, or a 4xx or 5xx. *)
Definition failed (r : reply) : bool :=
  match outcome r with
  | Unreachable _ => true
  | Response st _ => (400 <=? st) && (st <? 600)
  end.

(** A response whose body is not valid JSON. *)
Definition unparsable (r : reply) : bool :=
  match outcome r with
  | Response _ None => true
  | _ => false
  end.



(** ** Frames *)

(** Code that hands the controller object back as it found it, whether it
    returns, raises or runs out of fuel. *)
Definition keeps_config {A} (m : M A) : Prop :=
  forall w, this (snd (m w)) = this w.

(** ** Flow identifiers and IPv4 literals *)

(** [flow['flow'][0]['id']], as [main] reads the identifier back. *)
Definition flow_id (flow : json) : option string :=
  match flow with
  | JDict fs =>
      match dict_get "flow" fs with
      | Some (JList (JDict gs :: _)) =>
          match dict_get "id" gs with
          | Some (JStr s) => Some s
          | _ => None
          end
      | _ => None
      end
  | _ => None
  end.

Definition is_digit (c : ascii) : bool :=
  (48 <=? nat_of_ascii c)%nat && (nat_of_ascii c <=? 57)%nat.

(** Reads a dotted-decimal IPv4 literal from left to right: [acc] is the
    value of the octet being read, [digits] how many digits it has so far,
    [dots] how many dots were passed. *)
Fixpoint scan_ipv4 (s : string) (acc digits dots : nat) : bool :=
  match s with
  | EmptyString => (dots =? 3)%nat && (1 <=? digits)%nat
  | String c rest =>
      if is_digit c then
        let acc' := (10 * acc + (nat_of_ascii c - 48))%nat in
        (digits <? 3)%nat && (acc' <=? 255)%nat
        && scan_ipv4 rest acc' (S digits) dots
      else if Ascii.eqb c "." then
        (1 <=? digits)%nat && scan_ipv4 rest 0 0 (S dots)
      else false
  end.

(** Four decimal octets, each of one to three digits and at most 255,
    separated by dots. *)
Definition dotted_decimal (s : string) : bool := scan_ipv4 s 0 0 0.

Fixpoint dash_free (s : string) : bool :=
  match s with
  | EmptyString => true
  | String c rest => negb (Ascii.eqb c "-") && dash_free rest
  end.

(** * Properties *)

(** ** Running monadic code *)

Ltac run :=
  cbv [mbind mret M_bind M_ret res_bind res_ret lift self emit try_except
       logger_info logger_warning logger_error time_time time_sleep
       requests_get requests_put requests_delete requests_request
       raise_for_status response_json status content].

(** ** The entry loop *)

Lemma keyless_unready (e : json) :
  keyless_entry e = true -> unready_entry e = true.
Proof.
  destruct e as [| | | | |fs]; simpl; try discriminate.
  destruct (dict_get "node" fs) as [[| | | |[|]|]|];
    destruct (dict_get "link" fs) as [[| | | |[|]|]|]; congruence.
Qed.

Lemma ready_not_unready (e : json) :
  ready_entry e = true -> unready_entry e = false.
Proof.
  destruct e as [| | | | |fs]; simpl; try reflexivity.
  destruct (dict_get "node" fs) as [[| | | |[|]|]|];
    destruct (dict_get "link" fs) as [[| | | |[|]|]|]; simpl; congruence.
Qed.

Lemma for_topo_skip (e : json) (rest : list json) (w : world) :
  unready_entry e = true -> for_topo (e :: rest) w = for_topo rest w.
Proof.
  destruct e as [| | | | |fs]; simpl; try discriminate.
  unfold py_getitem.
  destruct (dict_get "node" fs) as [[| | | |[|]|]|];
    destruct (dict_get "link" fs) as [[| | | |[|]|]|];
    simpl; try discriminate; reflexivity.
Qed.

Lemma for_topo_unready (es : list json) (w : world) :
  forallb unready_entry es = true -> for_topo es w = (Ret false, w).
Proof.
  induction es as [|e es IH]; intros H.
  - reflexivity.
  - apply andb_prop in H as [He Hes].
    rewrite for_topo_skip by exact He. auto.
Qed.

Lemma for_topo_found (e : json) (rest : list json) (w : world) :
  ready_entry e = true ->
  exists msg, for_topo (e :: rest) w = (Ret true, note INFO msg w).
Proof.
  destruct e as [| | | | |fs]; simpl; try discriminate.
  unfold py_getitem.
  destruct (dict_get "node" fs) as [[| | | |[|n ns]|]|]; simpl; try discriminate.
  destruct (dict_get "link" fs) as [[| | | |[|l ls]|]|]; simpl; try discriminate.
  intros _. eexists. reflexivity.
Qed.

Lemma for_topo_first_ready (before after : list json) (e : json) (w : world) :
  forallb unready_entry before = true ->
  ready_entry e = true ->
  exists msg, for_topo (before ++ e :: after) w = (Ret true, note INFO msg w).
Proof.
  induction before as [|b before IH]; intros Hb He.
  - apply for_topo_found, He.
  - apply andb_prop in Hb as [Hb Hbs].
    rewrite <- app_comm_cons.
    rewrite for_topo_skip by exact Hb. auto.
Qed.

(** ** One pass of the polling loop *)

Lemma poll_step_falsy (poll_interval : Z) (t : json) (w : world) :
  truthy t = false ->
  poll_step poll_interval t w
  = (time_sleep poll_interval ;; mret None) (note WARNING (snd retry_line) w).
Proof. intros H. unfold poll_step. rewrite H. reflexivity. Qed.

Lemma sleep_ok {A} (secs : Z) (a : A) (w : world) :
  0 <= secs -> (time_sleep secs ;; mret a) w = (Ret a, pass secs w).
Proof.
  intros H. run. destruct (Z.ltb_spec secs 0); [lia | reflexivity].
Qed.

Lemma dict_get_nonempty (key : string) (fs : list (string * json)) (v : json) :
  dict_get key fs = Some v -> truthy (JDict fs) = true.
Proof. destruct fs; [discriminate | reflexivity]. Qed.

Lemma poll_step_unready (poll_interval : Z) (t : json) (w : world) :
  0 <= poll_interval ->
  unready_response t = true ->
  exists line,
    poll_step poll_interval t w = (Ret None, pass poll_interval (note (fst line) (snd line) w))
    /\ (line = retry_line \/ line = progress_line).
Proof.
  intros Hpi Ht.
  destruct (truthy t) eqn:Htruthy.
  2:{ exists retry_line. split; [|now left].
      rewrite poll_step_falsy by exact Htruthy. now apply sleep_ok. }
  exists progress_line. split; [|now right].
  unfold poll_step. rewrite Htruthy.
  destruct t as [| | | | |fs];
    try (unfold unready_response in Ht; rewrite Htruthy in Ht; discriminate).
  simpl in Ht. cbn [negb lift py_in py_getitem].
  destruct (dict_get "network-topology" fs) as [[| | | | |gs]|] eqn:Hnt;
    try discriminate.
  - run. cbn [py_in py_getitem].
    destruct (dict_get "topology" gs) as [[| | | |es|]|] eqn:Hts;
      try discriminate.
    + run. cbn [py_iter].
      rewrite (for_topo_unready es w Ht).
      now apply (sleep_ok (A := option bool)).
    + run. now apply (sleep_ok (A := option bool)).
  - run. now apply (sleep_ok (A := option bool)).
Qed.

Lemma poll_step_ready (poll_interval : Z) (t : json) (w : world)
    (before after : list json) (e : json) :
  topology_entries t = Some (before ++ e :: after) ->
  forallb unready_entry before = true ->
  ready_entry e = true ->
  exists msg, poll_step poll_interval t w = (Ret (Some true), note INFO msg w).
Proof.
  intros Ht Hb He.
  destruct t as [| | | | |fs]; try discriminate. simpl in Ht.
  destruct (dict_get "network-topology" fs) as [[| | | | |gs]|] eqn:Hnt;
    try discriminate.
  destruct (dict_get "topology" gs) as [[| | | |es|]|] eqn:Hts;
    try discriminate.
  injection Ht as ->.
  destruct (for_topo_first_ready before after e w Hb He) as [msg Hmsg].
  exists msg. unfold poll_step.
  rewrite (dict_get_nonempty _ _ _ Hnt).
  cbn [negb lift py_in py_getitem]. rewrite Hnt. run.
  cbn [py_in py_getitem]. rewrite Hts. run. cbn [py_iter].
  now rewrite Hmsg.
Qed.

(** ** Reading the topology *)

Lemma serve_get (u : string) (a : string * string) (h : list (string * string))
    (r : reply) (store : gmap string payload) :
  serve (mk_request GET u a h None) r store = store.
Proof. unfold serve. now destruct (accepted r). Qed.

Lemma get_topology_run (w : world) :
  exists lines,
    get_topology w = (Ret (fetched (upcoming w)), after_poll lines w).
Proof.
  unfold get_topology, fetched, after_poll, upcoming. run.
  unfold exchange, note. cbn [this network sent datastore clock logged].
  rewrite serve_get.
  destruct (outcome (network w (length (sent w)))) as [t|st b].
  - destruct t; cbn [raised RequestException]; eexists; reflexivity.
  - cbn [status content].
    destruct ((400 <=? st) && (st <? 600)); cbn [RequestException].
    + eexists; reflexivity.
    + destruct b; cbn [RequestException].
      * exists []. now rewrite app_nil_r.
      * eexists; reflexivity.
Qed.

Lemma quiet_fetched (r : reply) :
  quiet r = true -> unready_response (fetched r) = true.
Proof.
  unfold quiet, fetched. destruct (outcome r) as [t|st b]; [reflexivity|].
  destruct ((400 <=? st) && (st <? 600)); [reflexivity|].
  now destruct b.
Qed.

(** ** The polling loop *)

Lemma wait_loop_expired (fuel : nat) (timeout poll_interval start : Z)
    (w : world) :
  timeout <= clock w - start ->
  wait_loop (S fuel) timeout poll_interval start w
  = (Ret false,
     note WARNING ("Topology discovery timed out after " +:+ str timeout +:+ "s") w).
Proof.
  intros H. cbn [wait_loop]. run.
  destruct (Z.ltb_spec (clock w - start) timeout); [lia | reflexivity].
Qed.

Lemma wait_loop_quiet (fuel : nat) (timeout poll_interval start : Z)
    (w : world) :
  clock w - start < timeout ->
  0 <= poll_interval ->
  quiet (upcoming w) = true ->
  exists lines,
    wait_loop (S fuel) timeout poll_interval start w
    = wait_loop fuel timeout poll_interval start (next_turn poll_interval lines w).
Proof.
  intros Hlt Hpi Hq.
  destruct (get_topology_run w) as [l1 Hget].
  destruct (poll_step_unready poll_interval _ (after_poll l1 w) Hpi
              (quiet_fetched _ Hq)) as [line [Hstep _]].
  exists (l1 ++ [line]).
  cbn [wait_loop]. run.
  destruct (Z.ltb_spec (clock w - start) timeout); [|lia].
  rewrite Hget, Hstep.
  unfold next_turn, pass, note, after_poll.
  cbn [this network sent datastore clock logged].
  rewrite <- app_assoc. now destruct line.
Qed.

Lemma wait_loop_ready (fuel : nat) (timeout poll_interval start : Z)
    (w : world) (before after : list json) (e : json) :
  clock w - start < timeout ->
  topology_entries (fetched (upcoming w)) = Some (before ++ e :: after) ->
  forallb unready_entry before = true ->
  ready_entry e = true ->
  exists lines,
    wait_loop (S fuel) timeout poll_interval start w
    = (Ret true, after_poll lines w).
Proof.
  intros Hlt Ht Hb He.
  destruct (get_topology_run w) as [l1 Hget].
  destruct (poll_step_ready poll_interval _ (after_poll l1 w) _ _ _ Ht Hb He)
    as [msg Hstep].
  exists (l1 ++ [(INFO, msg)]).
  cbn [wait_loop]. run.
  destruct (Z.ltb_spec (clock w - start) timeout); [|lia].
  rewrite Hget, Hstep.
  unfold note, after_poll. cbn [this network sent datastore clock logged].
  now rewrite <- app_assoc.
Qed.

Lemma keyless_all_unready (es : list json) :
  forallb keyless_entry es = true -> forallb unready_entry es = true.
Proof.
  induction es as [|e es IH]; [reflexivity|]. cbn [forallb].
  intros H. apply andb_prop in H as [He Hes].
  now rewrite (keyless_unready e He), IH.
Qed.

Lemma lacks_keys_unready (t : json) :
  lacks_keys t = true -> unready_response t = true.
Proof.
  destruct t as [| | | | |fs]; try discriminate. simpl.
  destruct (dict_get "network-topology" fs) as [[| | | | |gs]|];
    try discriminate; [|reflexivity].
  destruct (dict_get "topology" gs) as [[| | | |es|]|];
    try discriminate; [|reflexivity].
  apply keyless_all_unready.
Qed.

Lemma waited_nonneg (net : nat -> reply) (i k : nat) (poll_interval : Z) :
  0 <= poll_interval -> 0 <= waited net i k poll_interval.
Proof.
  intros Hpi. revert i. induction k as [|k IH]; intros i; cbn [waited].
  - lia.
  - specialize (IH (S i)). lia.
Qed.

Lemma waited_instant (net : nat -> reply) (i k : nat) (poll_interval : Z) :
  (forall j, latency (net j) = 0%N) ->
  waited net i k poll_interval = Z.of_nat k * poll_interval.
Proof.
  intros Hnet. revert i. induction k as [|k IH]; intros i; cbn [waited].
  - lia.
  - rewrite IH, Hnet. lia.
Qed.

Lemma later_next_turn (n : nat) (now poll_interval : Z)
    (l1 l2 : list (level * string)) (w : world) :
  later n now l2 (next_turn poll_interval l1 w) = later (S n) now (l1 ++ l2) w.
Proof.
  unfold later, next_turn. cbn [this network sent datastore clock logged].
  cbn [repeat]. now rewrite <- !app_assoc.
Qed.

Section Loop.

Variables timeout poll_interval start : Z.

(** A network that never shows a discovered topology runs the loop into
    its deadline. *)
Lemma wait_loop_times_out (fuel : nat) (w : world) :
  0 < poll_interval ->
  (forall i, quiet (network w i) = true) ->
  Z.max 0 (timeout - (clock w - start)) < Z.of_nat fuel ->
  exists n now lines,
    wait_loop fuel timeout poll_interval start w
    = (Ret false, later n now lines w)
    /\ timeout <= now - start
    /\ now = clock w + waited (network w) (length (sent w)) n poll_interval
    /\ (forall k, (k < n)%nat ->
          waited (network w) (length (sent w)) k poll_interval
          < timeout - (clock w - start)).
Proof.
  intros Hpi. revert w.
  induction fuel as [|fuel IH]; intros w Hq Hfuel; [lia|].
  destruct (Z.lt_ge_cases (clock w - start) timeout) as [Hlt|Hge].
  - destruct (wait_loop_quiet fuel timeout poll_interval start w Hlt
                ltac:(lia) (Hq _)) as [l1 Hstep].
    destruct (IH (next_turn poll_interval l1 w)) as (n & now & l2 & Hrun & Hnow & Hclk & Hpre).
    + exact Hq.
    + cbn [next_turn clock]. lia.
    + exists (S n), now, (l1 ++ l2).
      rewrite Hstep, Hrun, later_next_turn.
      cbn [next_turn clock network sent] in Hclk, Hpre.
      rewrite length_app in Hclk, Hpre. cbn [length] in Hclk, Hpre.
      replace (length (sent w) + 1)%nat with (S (length (sent w))) in Hclk, Hpre by lia.
      split; [reflexivity|]. split; [exact Hnow|].
      split.
      * cbn [waited]. unfold upcoming in Hclk. lia.
      * intros [|k] Hk; cbn [waited]; [lia|].
        specialize (Hpre k ltac:(lia)). unfold upcoming in Hpre. lia.
  - exists O, (clock w), [(WARNING, "Topology discovery timed out after " +:+ str timeout +:+ "s")].
    rewrite wait_loop_expired by lia.
    split.
    + unfold later, note. cbn [repeat]. now rewrite app_nil_r.
    + split; [lia|]. split; [cbn [waited]; lia|]. intros k Hk. lia.
Qed.

(** After [k] fruitless turns that fit before the deadline, a poll that
    shows a ready entry ends the wait with [True]. *)
Lemma wait_loop_first_ready (k fuel : nat) (w : world)
    (before after : list json) (e : json) :
  0 <= poll_interval ->
  (k < fuel)%nat ->
  (forall i, (i < k)%nat -> quiet (network w (length (sent w) + i)) = true) ->
  topology_entries (fetched (network w (length (sent w) + k)))
  = Some (before ++ e :: after) ->
  forallb unready_entry before = true ->
  ready_entry e = true ->
  clock w - start + waited (network w) (length (sent w)) k poll_interval < timeout ->
  exists lines,
    wait_loop fuel timeout poll_interval start w
    = (Ret true,
       later (S k)
         (clock w + waited (network w) (length (sent w)) k poll_interval
          + Z.of_N (latency (network w (length (sent w) + k))))
         lines w).
Proof.
  intros Hpi. revert fuel w.
  induction k as [|k IH]; intros fuel w Hfuel Hq Ht Hb He Htime;
    (destruct fuel as [|fuel]; [lia|]).
  - cbn [waited] in *. rewrite Nat.add_0_r in Ht.
    destruct (wait_loop_ready fuel timeout poll_interval start w before after e
                ltac:(lia) Ht Hb He) as [lines Hrun].
    exists lines. rewrite Hrun. unfold later, after_poll, upcoming.
    cbn [repeat]. rewrite Nat.add_0_r. do 2 f_equal. lia.
  - cbn [waited] in Htime.
    pose proof (waited_nonneg (network w) (S (length (sent w))) k poll_interval Hpi).
    destruct (wait_loop_quiet fuel timeout poll_interval start w
                ltac:(lia) Hpi) as [l1 Hstep].
    { specialize (Hq O ltac:(lia)). now rewrite Nat.add_0_r in Hq. }
    assert (Hlen : length (sent (next_turn poll_interval l1 w)) = S (length (sent w))).
    { cbn [next_turn sent]. rewrite length_app. cbn [length]. lia. }
    destruct (IH fuel (next_turn poll_interval l1 w)) as [l2 Hrun].
    + lia.
    + intros i Hi. rewrite Hlen. cbn [next_turn network].
      replace (S (length (sent w)) + i)%nat with (length (sent w) + S i)%nat by lia.
      apply Hq. lia.
    + rewrite Hlen. cbn [next_turn network].
      replace (S (length (sent w)) + k)%nat with (length (sent w) + S k)%nat by lia.
      exact Ht.
    + exact Hb.
    + exact He.
    + rewrite Hlen. cbn [next_turn network clock]. unfold upcoming. lia.
    + exists (l1 ++ l2). rewrite Hstep, Hrun, later_next_turn.
      rewrite Hlen. cbn [next_turn network clock waited]. unfold upcoming.
      replace (S (length (sent w)) + k)%nat with (length (sent w) + S k)%nat by lia.
      do 2 f_equal. lia.
Qed.

End Loop.

Lemma wait_for_topology_discovery_unfold (fuel : nat) (timeout poll_interval : Z)
    (w : world) :
  wait_for_topology_discovery fuel timeout poll_interval w
  = wait_loop fuel timeout poll_interval (clock w)
      (note INFO ("Waiting for topology discovery (timeout: " +:+ str timeout
                  +:+ "s)") w).
Proof. reflexivity. Qed.

Lemma later_note (n : nat) (now : Z) (lines : list (level * string))
    (l : level) (msg : string) (w : world) :
  later n now lines (note l msg w) = later n now ((l, msg) :: lines) w.
Proof.
  unfold later, note. cbn [this network sent datastore clock logged].
  now rewrite <- app_assoc.
Qed.

(** ** Discovery waiter: success *)

(** C1 (as amended).  Let the first [k] polls show nothing (each fails or
    yields an unready response) and fit before the deadline, and let poll
    [k] yield a response [{'network-topology': {'topology': entries}}] in
    which some entry has a non-empty node list and a non-empty link list,
    every entry before the first such one being an unready topology entry.
    Then [wait_for_topology_discovery] returns [True] at that very poll,
    after exactly [k + 1] topology requests and no sleep after the last,
    whatever the entries after it are: entries are judged one by one. *)
Theorem first_ready_poll_returns_true (k fuel : nat) (timeout poll_interval : Z)
    (w : world) (before after : list json) (e : json) :
  0 <= poll_interval ->
  (k < fuel)%nat ->
  (forall i, (i < k)%nat -> quiet (network w (length (sent w) + i)) = true) ->
  topology_entries (fetched (network w (length (sent w) + k)))
  = Some (before ++ e :: after) ->
  forallb unready_entry before = true ->
  ready_entry e = true ->
  waited (network w) (length (sent w)) k poll_interval < timeout ->
  exists w',
    wait_for_topology_discovery fuel timeout poll_interval w = (Ret true, w')
    /\ sent w' = sent w ++ repeat (topology_request (this w)) (S k)
    /\ clock w' = clock w + waited (network w) (length (sent w)) k poll_interval
                  + Z.of_N (latency (network w (length (sent w) + k))).
Proof.
  intros Hpi Hfuel Hq Ht Hb He Htime.
  rewrite wait_for_topology_discovery_unfold.
  set (w0 := note INFO _ w).
  destruct (wait_loop_first_ready timeout poll_interval (clock w) k fuel w0
              before after e Hpi Hfuel Hq Ht Hb He) as [lines Hrun].
  { subst w0. cbn [note clock network sent]. lia. }
  eexists. split; [exact Hrun|]. subst w0. now rewrite later_note.
Qed.

(** ** Discovery waiter: timeout *)

(** C3 (as amended).  When every poll fails or yields an unready response
    and [poll_interval] is positive, [wait_for_topology_discovery] returns
    [False] without raising, having issued nothing but topology requests,
    each begun before the deadline; the time elapsed is at least [timeout],
    and, when the exchanges take no time and [timeout] is not negative, less
    than [timeout + poll_interval]. *)
Theorem unready_polls_time_out (timeout poll_interval : Z) (w : world) :
  0 < poll_interval ->
  (forall i, quiet (network w i) = true) ->
  exists fuel0, forall fuel, (fuel0 <= fuel)%nat ->
  exists n w',
    wait_for_topology_discovery fuel timeout poll_interval w = (Ret false, w')
    /\ sent w' = sent w ++ repeat (topology_request (this w)) n
    /\ (forall k, (k < n)%nat ->
          waited (network w) (length (sent w)) k poll_interval < timeout)
    /\ timeout <= clock w' - clock w
    /\ ((forall i, latency (network w i) = 0%N) -> 0 <= timeout ->
        clock w' - clock w = Z.of_nat n * poll_interval
        /\ clock w' - clock w < timeout + poll_interval).
Proof.
  intros Hpi Hq. exists (S (Z.to_nat timeout)). intros fuel Hfuel.
  rewrite wait_for_topology_discovery_unfold.
  set (w0 := note INFO _ w).
  destruct (wait_loop_times_out timeout poll_interval (clock w) fuel w0 Hpi)
    as (n & now & lines & Hrun & Hnow & Hclk & Hpre).
  { exact Hq. }
  { subst w0. cbn [note clock]. lia. }
  subst w0. cbn [note clock network sent] in Hclk, Hpre.
  exists n. eexists. split; [exact Hrun|].
  rewrite later_note. cbn [later sent clock this].
  split; [reflexivity|].
  split; [intros k Hk; specialize (Hpre k Hk); lia|].
  split; [lia|].
  intros Hzero Htimeout.
  rewrite waited_instant in Hclk by exact Hzero.
  split; [lia|].
  destruct n as [|m]; [lia|].
  specialize (Hpre m ltac:(lia)).
  rewrite waited_instant in Hpre by exact Hzero. lia.
Qed.

(** C4.  With [timeout = 4], [poll_interval = 2], exchanges that take no
    time and a controller that shows nothing discovered on every call (an
    empty topology list, say), the waiter polls exactly twice and returns
    [False] with 4 on the clock. *)
Theorem two_polls_in_four_seconds (fuel : nat) (w : world) :
  (forall i, latency (network w i) = 0%N /\ quiet (network w i) = true) ->
  (3 <= fuel)%nat ->
  exists w',
    wait_for_topology_discovery fuel 4 2 w = (Ret false, w')
    /\ sent w' = sent w ++ [topology_request (this w); topology_request (this w)]
    /\ clock w' = clock w + 4.
Proof.
  intros Hnet Hfuel.
  destruct fuel as [|[|[|fuel]]]; try lia.
  rewrite wait_for_topology_discovery_unfold.
  set (w0 := note INFO _ w).
  assert (Hlat : forall v, latency (network w v) = 0%N) by (intros v; apply Hnet).
  destruct (wait_loop_quiet (S (S fuel)) 4 2 (clock w) w0) as [l1 H1];
    [subst w0; cbn [note clock]; lia | lia | apply Hnet |].
  set (w1 := next_turn 2 l1 w0) in H1.
  destruct (wait_loop_quiet (S fuel) 4 2 (clock w) w1) as [l2 H2];
    [subst w1 w0; cbn [next_turn clock]; unfold upcoming; cbn [note clock network];
     rewrite Hlat; lia
    | lia | apply Hnet |].
  set (w2 := next_turn 2 l2 w1) in H2.
  assert (Hclock : clock w2 = clock w + 4).
  { subst w2 w1 w0. cbn [next_turn clock]. unfold upcoming.
    cbn [next_turn note clock network]. rewrite !Hlat. lia. }
  rewrite H1, H2, wait_loop_expired by lia.
  eexists. split; [reflexivity|].
  split; [|exact Hclock].
  subst w2 w1 w0. cbn [note next_turn sent this]. now rewrite <- app_assoc.
Qed.

Lemma first_ready_poll_returns_true_witness :
  exists w',
    wait_for_topology_discovery 5 30 2 (boot discovering) = (Ret true, w')
    /\ sent w' = sent (boot discovering)
                 ++ repeat (topology_request (this (boot discovering))) 2
    /\ clock w' = clock (boot discovering)
                  + waited (network (boot discovering))
                      (length (sent (boot discovering))) 1 2
                  + Z.of_N (latency (network (boot discovering)
                                       (length (sent (boot discovering)) + 1))).
Proof.
  apply (first_ready_poll_returns_true 1 5 30 2 (boot discovering)
           [bare_entry] [JNull] switch_entry).
  - lia.
  - lia.
  - intros [|i] Hi; [reflexivity | lia].
  - reflexivity.
  - reflexivity.
  - reflexivity.
  - vm_compute. reflexivity.
Defined.

(** C1 as stated fails: the response below has an entry with two nodes and a
    link, yet an earlier entry whose ['node'] is null makes the waiter raise
    at [len(topo['node'])] instead of returning [True]. *)
Lemma null_node_before_ready_entry_raises :
  let t := topology_of [null_node_entry; switch_entry] in
  topology_entries t = Some [null_node_entry; switch_entry]
  /\ ready_entry switch_entry = true
  /\ fst (wait_for_topology_discovery 5 30 2 (boot (fun _ => ok_after 0 t)))
     = Raise (TypeError "object of type 'NoneType' has no len()").
Proof. repeat split. Qed.

Lemma unready_polls_time_out_witness :
  exists fuel0, forall fuel, (fuel0 <= fuel)%nat ->
  exists n w',
    wait_for_topology_discovery fuel 4 2 (boot (fun _ => ok_after 1 (topology_of [bare_entry])))
    = (Ret false, w')
    /\ sent w' = sent (boot (fun _ => ok_after 1 (topology_of [bare_entry])))
                 ++ repeat (topology_request lab) n
    /\ (forall k, (k < n)%nat ->
          waited (fun _ => ok_after 1 (topology_of [bare_entry])) 0 k 2 < 4)
    /\ 4 <= clock w' - 0
    /\ ((forall i : nat, latency (ok_after 1 (topology_of [bare_entry])) = 0%N) ->
        0 <= 4 ->
        clock w' - 0 = Z.of_nat n * 2 /\ clock w' - 0 < 4 + 2).
Proof.
  apply (unready_polls_time_out 4 2
           (boot (fun _ => ok_after 1 (topology_of [bare_entry])))).
  - lia.
  - intros i. reflexivity.
Defined.

(** C3 as stated fails on its upper bound: with [timeout = 4] and
    [poll_interval = 2], a connection attempt that takes 5 before it is
    refused puts the waiter at 7 when it returns [False], not below 6. *)
Lemma slow_failure_overshoots_deadline :
  let w := boot (fun _ => mk_reply 5 (Unreachable connection_refused)) in
  let out := wait_for_topology_discovery 3 4 2 w in
  fst out = Ret false
  /\ clock (snd out) - clock w = 7
  /\ ~ clock (snd out) - clock w < 4 + 2.
Proof. vm_compute. repeat split; intros H; discriminate H. Qed.

Lemma two_polls_in_four_seconds_witness :
  exists w',
    wait_for_topology_discovery 3 4 2 (boot (fun _ => ok_after 0 (topology_of [])))
    = (Ret false, w')
    /\ sent w' = [topology_request lab; topology_request lab]
    /\ clock w' = 4.
Proof.
  apply (two_polls_in_four_seconds 3 (boot (fun _ => ok_after 0 (topology_of [])))).
  - intros i. split; reflexivity.
  - lia.
Defined.

(** ** Discovery waiter: responses without the expected keys *)

(** C7 (as amended).  A response that parses to a mapping and lacks the
    expected keys (no ['network-topology'], or a mapping under it with no
    ['topology'], or a list under that whose entries are all mappings
    without ['node'] or without ['link']) is not yet ready: the pass over
    it neither raises nor returns, it logs, sleeps [poll_interval] and the
    loop goes on to the next poll. *)
Theorem missing_keys_mean_not_ready (fuel : nat)
    (timeout poll_interval start st : Z) (t : json) (w : world) :
  0 <= poll_interval ->
  lacks_keys t = true ->
  (exists line,
     poll_step poll_interval t w
     = (Ret None, pass poll_interval (note (fst line) (snd line) w))
     /\ (line = retry_line \/ line = progress_line))
  /\ (clock w - start < timeout ->
      outcome (upcoming w) = Response st (Some t) ->
      (400 <=? st) && (st <? 600) = false ->
      exists lines,
        wait_loop (S fuel) timeout poll_interval start w
        = wait_loop fuel timeout poll_interval start
            (next_turn poll_interval lines w)).
Proof.
  intros Hpi Ht. apply lacks_keys_unready in Ht. split.
  - now apply poll_step_unready.
  - intros Hlt Hout Hst. apply wait_loop_quiet; try assumption.
    unfold quiet. now rewrite Hout, Hst.
Qed.

Lemma missing_keys_mean_not_ready_witness :
  (exists line,
     poll_step 2 topology_missing (boot (fun _ => ok_after 0 topology_missing))
     = (Ret None,
        pass 2 (note (fst line) (snd line)
                  (boot (fun _ => ok_after 0 topology_missing))))
     /\ (line = retry_line \/ line = progress_line))
  /\ (clock (boot (fun _ => ok_after 0 topology_missing)) - 0 < 30 ->
      outcome (upcoming (boot (fun _ => ok_after 0 topology_missing)))
      = Response 200 (Some topology_missing) ->
      (400 <=? 200) && (200 <? 600) = false ->
      exists lines,
        wait_loop 4 30 2 0 (boot (fun _ => ok_after 0 topology_missing))
        = wait_loop 3 30 2 0
            (next_turn 2 lines (boot (fun _ => ok_after 0 topology_missing)))).
Proof.
  apply (missing_keys_mean_not_ready 3 30 2 0 200 topology_missing
           (boot (fun _ => ok_after 0 topology_missing))).
  - lia.
  - reflexivity.
Defined.

(** C7 as stated fails: this response parses and has no ['topology'] key
    under ['network-topology'] (a null is there instead of a mapping), and
    the membership test on the null raises. *)
Lemma null_under_network_topology_raises :
  let t := JDict [("network-topology", JNull)] in
  let w := boot (fun _ => ok_after 0 t) in
  fst (get_topology w) = Ret t
  /\ fst (poll_step 2 t w)
     = Raise (TypeError "argument of type 'NoneType' is not iterable")
  /\ fst (wait_for_topology_discovery 5 30 2 w)
     = Raise (TypeError "argument of type 'NoneType' is not iterable").
Proof. repeat split. Qed.

(** ** Discovery waiter: falsy poll results *)




(** ** Controller client: failures *)

Ltac exchange_cases :=
  unfold fetched, failed, upcoming; run;
  match goal with
  | |- context [outcome ?r] =>
      destruct (outcome r) as [[]|st [v|]]; cbn [raised RequestException];
      try reflexivity;
      cbv [status content];
      destruct ((400 <=? st) && (st <? 600)); reflexivity
  end.

Lemma get_topology_returns (w : world) :
  fst (get_topology w) = Ret (fetched (upcoming w)).
Proof. unfold get_topology. exchange_cases. Qed.

Lemma get_nodes_returns (w : world) :
  fst (get_nodes w) = Ret (fetched (upcoming w)).
Proof. unfold get_nodes. exchange_cases. Qed.

Lemma get_node_connectors_returns (node_id : string) (w : world) :
  fst (get_node_connectors node_id w) = Ret (fetched (upcoming w)).
Proof. unfold get_node_connectors. exchange_cases. Qed.

Lemma get_flows_returns (node_id : string) (w : world) :
  fst (get_flows node_id w) = Ret (fetched (upcoming w)).
Proof. unfold get_flows. exchange_cases. Qed.

Lemma get_node_statistics_returns (node_id : string) (w : world) :
  fst (get_node_statistics node_id w) = Ret (fetched (upcoming w)).
Proof. unfold get_node_statistics. exchange_cases. Qed.

Lemma install_flow_returns (node_id flow_id : string) (flow_body : json)
    (w : world) :
  fst (install_flow node_id flow_id flow_body w)
  = Ret (negb (failed (upcoming w))).
Proof. unfold install_flow. exchange_cases. Qed.

Lemma delete_flow_returns (node_id flow_id : string) (w : world) :
  fst (delete_flow node_id flow_id w) = Ret (negb (failed (upcoming w))).
Proof. unfold delete_flow. exchange_cases. Qed.

Lemma fetched_absent (r : reply) :
  failed r = true \/ unparsable r = true -> fetched r = JNull.
Proof.
  unfold failed, unparsable, fetched.
  destruct (outcome r) as [t|st [v|]]; [reflexivity| |].
  - intros [-> | H]; [reflexivity | discriminate].
  - now destruct ((400 <=? st) && (st <? 600)).
Qed.

(** C2 (as amended).  When the exchange ends without a response (DNS
    failure, connection refused, timeout), or with a 4xx or 5xx status, or
    with a body that is not valid JSON, every read returns [None]; a write
    returns [False] when there was no response or a 4xx or 5xx status, and
    [True] otherwise (it never reads the body).  None of them raises. *)
Theorem failed_exchange_yields_absence (node_id flow_id : string)
    (flow_body : json) (w : world) :
  failed (upcoming w) = true \/ unparsable (upcoming w) = true ->
  fst (get_topology w) = Ret JNull
  /\ fst (get_nodes w) = Ret JNull
  /\ fst (get_node_connectors node_id w) = Ret JNull
  /\ fst (get_flows node_id w) = Ret JNull
  /\ fst (install_flow node_id flow_id flow_body w)
     = Ret (negb (failed (upcoming w)))
  /\ fst (delete_flow node_id flow_id w) = Ret (negb (failed (upcoming w))).
Proof.
  intros H. apply fetched_absent in H.
  rewrite get_topology_returns, get_nodes_returns, get_node_connectors_returns,
    get_flows_returns, install_flow_returns, delete_flow_returns, H.
  repeat split.
Qed.

Lemma failed_exchange_yields_absence_witness :
  let w := boot (fun _ => mk_reply 3 (Response 503 (Some (topology_of [switch_entry])))) in
  fst (get_topology w) = Ret JNull
  /\ fst (get_nodes w) = Ret JNull
  /\ fst (get_node_connectors "openflow:1" w) = Ret JNull
  /\ fst (get_flows "openflow:1" w) = Ret JNull
  /\ fst (install_flow "openflow:1" "flow-to-10-0-0-2"
            (create_example_flow "10.0.0.2" 2) w)
     = Ret (negb (failed (upcoming w)))
  /\ fst (delete_flow "openflow:1" "flow-to-10-0-0-2" w)
     = Ret (negb (failed (upcoming w))).
Proof.
  apply (failed_exchange_yields_absence "openflow:1" "flow-to-10-0-0-2"
           (create_example_flow "10.0.0.2" 2)
           (boot (fun _ => mk_reply 3 (Response 503 (Some (topology_of [switch_entry])))))).
  left. reflexivity.
Defined.

(** C2 as stated fails for statuses that are neither 2xx nor 4xx/5xx:
    [raise_for_status] lets a final 304 through, so the write reports
    success and the read hands back the body. *)
Lemma status_304_is_not_absence :
  let w := boot (fun _ => mk_reply 0 (Response 304 (Some (topology_of [])))) in
  accepted (upcoming w) = false
  /\ fst (install_flow "openflow:1" "flow-to-10-0-0-2"
            (create_example_flow "10.0.0.2" 2) w) = Ret true
  /\ fst (delete_flow "openflow:1" "flow-to-10-0-0-2" w) = Ret true
  /\ fst (get_topology w) = Ret (topology_of []).
Proof. repeat split. Qed.

(** ** Controller client: installing a flow *)






(** ** Controller client: what a call leaves alone *)

Lemma keeps_ret {A} (a : A) : keeps_config (mret a).
Proof. intros w. reflexivity. Qed.

Lemma keeps_lift {A} (r : res A) : keeps_config (lift r).
Proof. intros w. reflexivity. Qed.

Lemma keeps_bind {A B} (m : M A) (f : A -> M B) :
  keeps_config m -> (forall a, keeps_config (f a)) -> keeps_config (m ≫= f).
Proof.
  intros Hm Hf w. unfold mbind, M_bind. specialize (Hm w).
  destruct (m w) as [[a|e|] w']; cbn [snd] in *; [|assumption..].
  now rewrite Hf.
Qed.

Lemma keeps_try {A} (body : M A) (handler : exn -> M A) :
  keeps_config body -> (forall e, keeps_config (handler e)) ->
  keeps_config (try_except body handler).
Proof.
  intros Hb Hh w. unfold try_except. specialize (Hb w).
  destruct (body w) as [[a|e|] w']; cbn [snd] in *; [assumption| |assumption].
  destruct (RequestException e); [now rewrite Hh | assumption].
Qed.

Lemma keeps_self : keeps_config self.
Proof. intros w. reflexivity. Qed.

Lemma keeps_emit (l : level) (msg : string) : keeps_config (emit l msg).
Proof. intros w. reflexivity. Qed.

Lemma keeps_time : keeps_config time_time.
Proof. intros w. reflexivity. Qed.

Lemma keeps_sleep (secs : Z) : keeps_config (time_sleep secs).
Proof. intros w. unfold time_sleep. now destruct (secs <? 0). Qed.

Lemma keeps_request (q : request) : keeps_config (requests_request q).
Proof.
  intros w. unfold requests_request.
  now destruct (outcome (network w (length (sent w)))).
Qed.

Lemma keeps_raise_for_status (r : response) : keeps_config (raise_for_status r).
Proof.
  unfold raise_for_status.
  destruct ((400 <=? status r) && (status r <? 600));
    [apply keeps_lift | apply keeps_ret].
Qed.

Lemma keeps_response_json (r : response) : keeps_config (response_json r).
Proof.
  unfold response_json. destruct (content r); [apply keeps_ret | apply keeps_lift].
Qed.

Create HintDb frame.

#[local] Hint Resolve keeps_ret keeps_lift keeps_self keeps_emit keeps_time
  keeps_sleep keeps_request keeps_raise_for_status keeps_response_json : frame.

#[local] Hint Extern 1 (keeps_config (logger_info _)) => apply keeps_emit : frame.
#[local] Hint Extern 1 (keeps_config (logger_warning _)) => apply keeps_emit : frame.
#[local] Hint Extern 1 (keeps_config (logger_error _)) => apply keeps_emit : frame.
#[local] Hint Extern 1 (keeps_config (requests_get _ _ _)) => apply keeps_request : frame.
#[local] Hint Extern 1 (keeps_config (requests_put _ _ _ _)) => apply keeps_request : frame.
#[local] Hint Extern 1 (keeps_config (requests_delete _ _ _)) => apply keeps_request : frame.

Ltac frame :=
  repeat first
    [ apply keeps_bind; [|intros ?]
    | apply keeps_try; [|intros ?]
    | solve [auto with frame]
    | match goal with
      | |- keeps_config (if ?c then _ else _) => destruct c
      | |- keeps_config (match ?x with _ => _ end) => destruct x
      end ].

Lemma keeps_get_topology : keeps_config get_topology.
Proof. unfold get_topology. frame. Qed.

Lemma keeps_get_nodes : keeps_config get_nodes.
Proof. unfold get_nodes. frame. Qed.

Lemma keeps_get_node_connectors (node_id : string) :
  keeps_config (get_node_connectors node_id).
Proof. unfold get_node_connectors. frame. Qed.

Lemma keeps_get_flows (node_id : string) : keeps_config (get_flows node_id).
Proof. unfold get_flows. frame. Qed.

Lemma keeps_install_flow (node_id flow_id : string) (flow_body : json) :
  keeps_config (install_flow node_id flow_id flow_body).
Proof. unfold install_flow. frame. Qed.

Lemma keeps_delete_flow (node_id flow_id : string) :
  keeps_config (delete_flow node_id flow_id).
Proof. unfold delete_flow. frame. Qed.

Lemma keeps_for_topo (entries : list json) : keeps_config (for_topo entries).
Proof.
  induction entries as [|topo rest IH]; cbn [for_topo]; [apply keeps_ret|].
  frame.
Qed.

Lemma keeps_poll_step (poll_interval : Z) (topology : json) :
  keeps_config (poll_step poll_interval topology).
Proof.
  pose proof keeps_for_topo. unfold poll_step. frame.
Qed.

Lemma keeps_wait_loop (fuel : nat) (timeout poll_interval start : Z) :
  keeps_config (wait_loop fuel timeout poll_interval start).
Proof.
  pose proof keeps_get_topology. pose proof keeps_poll_step.
  induction fuel as [|fuel IH]; cbn [wait_loop]; [apply keeps_lift|].
  frame.
Qed.

Lemma keeps_wait_for_topology_discovery (fuel : nat) (timeout poll_interval : Z) :
  keeps_config (wait_for_topology_discovery fuel timeout poll_interval).
Proof.
  pose proof keeps_wait_loop. unfold wait_for_topology_discovery. frame.
Qed.

(** C8.  [__init__] builds the base URL from host and port and stores the
    credential pair and the headers; no operation of the client changes
    any of the three, however the call ends. *)
Theorem endpoint_config_is_left_unchanged (fuel : nat)
    (timeout poll_interval : Z) (node_id flow_id : string) (flow_body : json)
    (ip username password : string) (port : Z) (w : world) :
  let unchanged (w' : world) :=
    base_url (this w') = base_url (this w)
    /\ auth (this w') = auth (this w)
    /\ headers (this w') = headers (this w) in
  base_url (__init__ ip port username password)
  = "http://" +:+ ip +:+ ":" +:+ str port +:+ "/restconf"
  /\ auth (__init__ ip port username password) = (username, password)
  /\ unchanged (snd (get_topology w))
  /\ unchanged (snd (get_nodes w))
  /\ unchanged (snd (get_node_connectors node_id w))
  /\ unchanged (snd (get_flows node_id w))
  /\ unchanged (snd (install_flow node_id flow_id flow_body w))
  /\ unchanged (snd (delete_flow node_id flow_id w))
  /\ unchanged (snd (wait_for_topology_discovery fuel timeout poll_interval w)).
Proof.
  cbv beta zeta.
  rewrite keeps_get_topology, keeps_get_nodes, keeps_get_node_connectors,
    keeps_get_flows, keeps_install_flow, keeps_delete_flow,
    keeps_wait_for_topology_discovery.
  repeat split.
Qed.

(** ** The placeholders *)

(** C10.  [create_shortest_path_flows] and [create_load_balanced_flows]
    return [True] on every input.  They write two log lines and do nothing
    else: no request is issued, and the controller object, the datastore
    and the clock are as before. *)
Theorem placeholders_return_true_and_do_nothing (source dest preference : string)
    (path_count : Z) (w : world) :
  (exists lines,
     create_shortest_path_flows source dest preference w
     = (Ret true,
        mk_world (this w) (network w) (sent w) (datastore w) (clock w)
                 (logged w ++ lines)))
  /\ (exists lines,
        create_load_balanced_flows source dest path_count w
        = (Ret true,
           mk_world (this w) (network w) (sent w) (datastore w) (clock w)
                    (logged w ++ lines))).
Proof.
  split; eexists [_; _]; unfold create_shortest_path_flows,
    create_load_balanced_flows; run; unfold note;
    cbn [this network sent datastore clock logged];
    now rewrite <- app_assoc.
Qed.

(** ** Flow identifiers *)

Lemma scan_ipv4_dash_free (s : string) (acc digits dots : nat) :
  scan_ipv4 s acc digits dots = true -> dash_free s = true.
Proof.
  revert acc digits dots.
  induction s as [|c rest IH]; intros acc digits dots H; [reflexivity|].
  cbn [scan_ipv4] in H. cbn [dash_free].
  destruct (Ascii.eqb_spec c "-") as [->|_]; [discriminate H|].
  destruct (is_digit c).
  - apply andb_prop in H as [_ H]. now apply IH in H.
  - destruct (Ascii.eqb c "."); [|discriminate].
    apply andb_prop in H as [_ H]. now apply IH in H.
Qed.

Lemma str_replace_dot_inj (s1 s2 : string) :
  dash_free s1 = true -> dash_free s2 = true ->
  str_replace "." "-" s1 = str_replace "." "-" s2 -> s1 = s2.
Proof.
  revert s2. induction s1 as [|c1 r1 IH]; intros [|c2 r2] H1 H2 Heq;
    try discriminate; [reflexivity|].
  cbn [dash_free] in H1, H2. cbn [str_replace] in Heq.
  apply andb_prop in H1 as [Hc1 Hr1]. apply andb_prop in H2 as [Hc2 Hr2].
  injection Heq as Hc Hr.
  f_equal; [|now apply IH].
  destruct (Ascii.eqb_spec c1 "-"); [discriminate|].
  destruct (Ascii.eqb_spec c2 "-"); [discriminate|].
  destruct (Ascii.eqb_spec c1 "."), (Ascii.eqb_spec c2 "."); congruence.
Qed.

Lemma flow_id_of_inj (ip1 ip2 : string) :
  dash_free ip1 = true -> dash_free ip2 = true ->
  flow_id_of ip1 = flow_id_of ip2 -> ip1 = ip2.
Proof.
  intros H1 H2 Heq. unfold flow_id_of in Heq. cbn [String.append] in Heq.
  injection Heq as Heq. now apply str_replace_dot_inj.
Qed.

(** C5.  The identifier [create_example_flow] puts into the flow is a
    function of the destination address alone (the same address gives the
    same identifier, whatever the port), ["10.0.0.2"] gives
    ["flow-to-10-0-0-2"], and two different dotted-decimal IPv4 literals
    never get the same identifier. *)
Theorem flow_identifier_is_injective_on_ipv4 (ip1 ip2 : string)
    (port1 port2 : Z) :
  dotted_decimal ip1 = true ->
  dotted_decimal ip2 = true ->
  flow_id (create_example_flow ip1 port1) = Some (flow_id_of ip1)
  /\ flow_id (create_example_flow ip1 port1) = flow_id (create_example_flow ip1 port2)
  /\ flow_id (create_example_flow "10.0.0.2" port1) = Some "flow-to-10-0-0-2"
  /\ (ip1 <> ip2 ->
      flow_id (create_example_flow ip1 port1)
      <> flow_id (create_example_flow ip2 port2)).
Proof.
  intros H1 H2.
  split; [reflexivity|]. split; [reflexivity|]. split; [reflexivity|].
  intros Hne Heq. apply Hne.
  apply (f_equal (default "")) in Heq.
  change (flow_id_of ip1 = flow_id_of ip2) in Heq.
  apply flow_id_of_inj.
  - exact (scan_ipv4_dash_free ip1 0 0 0 H1).
  - exact (scan_ipv4_dash_free ip2 0 0 0 H2).
  - exact Heq.
Qed.

Lemma flow_identifier_is_injective_on_ipv4_witness :
  flow_id (create_example_flow "10.0.0.2" 2) = Some (flow_id_of "10.0.0.2")
  /\ flow_id (create_example_flow "10.0.0.2" 2)
     = flow_id (create_example_flow "10.0.0.2" 3)
  /\ flow_id (create_example_flow "10.0.0.2" 2) = Some "flow-to-10-0-0-2"
  /\ ("10.0.0.2" <> "10.0.0.20" ->
      flow_id (create_example_flow "10.0.0.2" 2)
      <> flow_id (create_example_flow "10.0.0.20" 3)).
Proof.
  apply (flow_identifier_is_injective_on_ipv4 "10.0.0.2" "10.0.0.20" 2 3);
    reflexivity.
Defined.
